(** * The product catalogue service of [main.py], embedded in Rocq

    The service is a FastAPI application over a MongoDB database.  Its
    handlers are embedded as functions from the module global [db] (a
    database handle, or nothing when the connection is not configured) to a
    response and the handle afterwards.  Documents are finite maps from field
    names to BSON values, a collection is the list of its documents in
    insertion order, and every call that reaches the driver leaves an entry
    in the handle's journal, so that "no query" and "no write" are facts
    about the state. *)

From Stdlib Require Import ZArith Ascii String Floats.SpecFloat.
From stdpp Require Import gmap strings list fin_maps pretty.

Open Scope Z_scope.
Open Scope string_scope.

(** ** Python values *)

(** Python's [float] is IEEE 754 binary64: [spec_float] at precision 53. *)
Definition prec : Z := 53.
Definition emax : Z := 1024.

(** [float(n)] for an integer [n], rounded to nearest even. *)
Definition float_of_Z (n : Z) : spec_float := binary_normalize prec emax n 0 false.

(** A decimal literal [m / 10^k], such as [199.99 = decimal 19999 2]: the
    binary64 number nearest to it. *)
Definition decimal (m : Z) (k : Z) : spec_float :=
  SFdiv prec emax (float_of_Z m) (float_of_Z (10 ^ k)).

Definition zero : spec_float := S754_zero false.

(** A [str] is carried as its UTF-8 text.  A [str] that the code cuts by
    characters is the list of its code points, and [utf8] writes it out. *)
Definition utf8_char (c : N) : string :=
  if (c <? 128)%N then String (ascii_of_N c) EmptyString
  else if (c <? 2048)%N then
    String (ascii_of_N (192 + c / 64))
      (String (ascii_of_N (128 + c mod 64)) EmptyString)
  else if (c <? 65536)%N then
    String (ascii_of_N (224 + c / 4096))
      (String (ascii_of_N (128 + (c / 64) mod 64))
         (String (ascii_of_N (128 + c mod 64)) EmptyString))
  else
    String (ascii_of_N (240 + (c / 262144) mod 8))
      (String (ascii_of_N (128 + (c / 4096) mod 64))
         (String (ascii_of_N (128 + (c / 64) mod 64))
            (String (ascii_of_N (128 + c mod 64)) EmptyString))).

Fixpoint utf8 (s : list N) : string :=
  match s with
  | [] => EmptyString
  | c :: s' => utf8_char c ++ utf8 s'
  end.

(** An [ObjectId] is its bytes, twelve of them unless it was read from a
    text with blanks; it is carried as their lower-case hexadecimal digits,
    which is what [str] prints and what [==] compares. *)
Inductive value :=
| VNone
| VBool (b : bool)
| VInt (n : Z)
| VFloat (x : spec_float)
| VStr (s : string)
| VOid (hex : string).

Abbreviation document := (gmap string value).

Inductive exception :=
| TypeError
| ValueError
| OverflowError
| InvalidId
| ValidationError (fields : list string)
| DuplicateKeyError
| DatabaseError.

Inductive result (A : Type) :=
| Ok (a : A)
| Raise (e : exception).
Arguments Ok {A} a.
Arguments Raise {A} e.

#[global] Instance result_ret : MRet result := @Ok.
#[global] Instance result_bind : MBind result := fun A B f r =>
  match r with
  | Ok a => f a
  | Raise e => Raise e
  end.

(** What the embedding takes from the Python runtime and from pydantic
    without fixing it: the parsing and printing of floats, and the coercions
    pydantic tries on a value that is not of the declared type (they differ
    between its versions). *)
Class Runtime := {
  float_of_string : string -> option spec_float;
  repr_float : spec_float -> string;
  lax_str : value -> option string;
  lax_float : value -> option spec_float;
  lax_bool : value -> option bool;
}.

(** A runtime that parses no string as a float and coerces nothing. *)
Definition strict_runtime : Runtime := {|
  float_of_string := fun _ => None;
  repr_float := fun _ => "nan";
  lax_str := fun _ => None;
  lax_float := fun _ => None;
  lax_bool := fun _ => None;
|}.

Definition is_infinite (x : spec_float) : bool :=
  match x with
  | S754_infinity _ => true
  | _ => false
  end.

Definition is_nan (x : spec_float) : bool :=
  match x with
  | S754_nan => true
  | _ => false
  end.

Section Builtins.
Context `{Runtime}.

(** [str(v)] *)
Definition py_str (v : value) : string :=
  match v with
  | VNone => "None"
  | VBool true => "True"
  | VBool false => "False"
  | VInt n => pretty n
  | VFloat x => repr_float x
  | VStr s => s
  | VOid hex => hex
  end.

(** [float(v)] *)
Definition py_float (v : value) : result spec_float :=
  match v with
  | VFloat x => Ok x
  | VInt n => if is_infinite (float_of_Z n) then Raise OverflowError else Ok (float_of_Z n)
  | VBool b => Ok (float_of_Z (if b then 1 else 0))
  | VStr s =>
      match float_of_string s with
      | Some x => Ok x
      | None => Raise ValueError
      end
  | VNone | VOid _ => Raise TypeError
  end.

(** [bool(v)] *)
Definition py_bool (v : value) : bool :=
  match v with
  | VNone => false
  | VBool b => b
  | VInt n => negb (Z.eqb n 0)
  | VFloat (S754_zero _) => false
  | VFloat _ => true
  | VStr s => negb (String.eqb s "")
  | VOid _ => true
  end.

End Builtins.

(** ** bson.ObjectId *)

Definition is_digit (c : ascii) : bool :=
  let n := nat_of_ascii c in ((48 <=? n) && (n <=? 57))%nat.
Definition is_lower_af (c : ascii) : bool :=
  let n := nat_of_ascii c in ((97 <=? n) && (n <=? 102))%nat.
Definition is_upper_AF (c : ascii) : bool :=
  let n := nat_of_ascii c in ((65 <=? n) && (n <=? 70))%nat.

Definition is_hex (c : ascii) : bool := is_digit c || is_lower_af c || is_upper_AF c.
Definition is_lower_hex (c : ascii) : bool := is_digit c || is_lower_af c.

Definition lower (c : ascii) : ascii :=
  if is_upper_AF c then ascii_of_nat (nat_of_ascii c + 32) else c.

Fixpoint string_forallb (p : ascii -> bool) (s : string) : bool :=
  match s with
  | EmptyString => true
  | String c s' => p c && string_forallb p s'
  end.

Fixpoint string_map (f : ascii -> ascii) (s : string) : string :=
  match s with
  | EmptyString => EmptyString
  | String c s' => String (f c) (string_map f s')
  end.

(** The blanks [bytes.fromhex] skips: the ASCII white space. *)
Definition is_space (c : ascii) : bool :=
  let n := nat_of_ascii c in (((9 <=? n) && (n <=? 13)) || (n =? 32))%nat.

(** [bytes.fromhex(s)], read as the loop of the interpreter runs: at the
    start of a byte ([top = None]) blanks are skipped and a hexadecimal digit
    is taken as the high half; after a high half ([top = Some c]) the next
    character must be the low half.  Any other character, and a text that
    ends on a high half, is a [ValueError], here [None].  The bytes are
    written as their lower-case hexadecimal digits, two for each byte. *)
Fixpoint fromhex_from (top : option ascii) (s : string) : option string :=
  match s with
  | EmptyString =>
      match top with
      | None => Some EmptyString
      | Some _ => None
      end
  | String c s' =>
      match top with
      | None =>
          if is_space c then fromhex_from None s'
          else if is_hex c then fromhex_from (Some c) s'
          else None
      | Some t =>
          if is_hex c
          then String (lower t) <$> (String (lower c) <$> fromhex_from None s')
          else None
      end
  end.

Definition fromhex (s : string) : option string := fromhex_from None s.

(** [ObjectId(s)] for a string [s]: the text must have 24 characters and
    [bytes.fromhex] must accept it, else [InvalidId].  The identifier is the
    bytes decoded, fewer than twelve when the text holds blanks.  A character
    outside ASCII takes more than one element of the string, but it is
    refused in either reading: it is no hexadecimal digit and no blank. *)
Definition ObjectId (s : string) : result string :=
  if (String.length s =? 24)%nat
  then match fromhex s with
       | Some hex => Ok hex
       | None => Raise InvalidId
       end
  else Raise InvalidId.

(** The text of an [ObjectId] of twelve bytes, as the driver generates them
    and [str] prints them. *)
Definition wf_oid (hex : string) : bool :=
  (String.length hex =? 24)%nat && string_forallb is_lower_hex hex.

(** ** The pydantic models *)

Record ProductIn := {
  title : string;
  description : option string;
  price : spec_float;
  category : string;
  image : option string;
  in_stock : bool;
}.

(** [class ProductOut(ProductIn)]: the inherited fields and [id]. *)
Record ProductOut := {
  product :> ProductIn;
  id : string;
}.

Section Validation.
Context `{Runtime}.

(** A [str] field takes a string and refuses [None]. *)
Definition str_validator (v : value) : option string :=
  match v with
  | VStr s => Some s
  | VNone => None
  | _ => lax_str v
  end.

(** A [float] field takes a float, or an integer that it converts. *)
Definition float_validator (v : value) : option spec_float :=
  match v with
  | VFloat x => Some x
  | VInt n => if is_infinite (float_of_Z n) then None else Some (float_of_Z n)
  | VNone => None
  | _ => lax_float v
  end.

Definition bool_validator (v : value) : option bool :=
  match v with
  | VBool b => Some b
  | VNone => None
  | _ => lax_bool v
  end.

(** [Field(..., ge=0)]: the constraint [x >= 0]. *)
Definition ge0 (x : spec_float) : option spec_float :=
  if SFleb zero x then Some x else None.

(** [Field(...)]: the field must be given. *)
Definition required {A} (f : value -> option A) (arg : option value) : option A :=
  match arg with
  | Some v => f v
  | None => None
  end.

(** [Optional[T] = Field(None)]: absent and [None] both give [None]. *)
Definition optional {A} (f : value -> option A) (arg : option value) : option (option A) :=
  match arg with
  | None | Some VNone => Some None
  | Some v => Some <$> f v
  end.

(** [Field(d)]: the default [d] when the field is absent. *)
Definition with_default {A} (d : A) (f : value -> option A) (arg : option value) : option A :=
  match arg with
  | Some v => f v
  | None => Some d
  end.

Definition field_error {A} (field : string) (o : option A) : list string :=
  match o with
  | Some _ => []
  | None => [field]
  end.

(** [ProductIn(...)] on the keyword arguments [kw]: every field is validated and the failing ones are
    reported together. *)
Definition ProductIn_validate (kw : document) : result ProductIn :=
  let t := required str_validator (kw !! "title") in
  let d := optional str_validator (kw !! "description") in
  let p := required float_validator (kw !! "price") ≫= ge0 in
  let c := required str_validator (kw !! "category") in
  let i := optional str_validator (kw !! "image") in
  let s := with_default true bool_validator (kw !! "in_stock") in
  match t, d, p, c, i, s with
  | Some t, Some d, Some p, Some c, Some i, Some s =>
      Ok {| title := t; description := d; price := p; category := c;
            image := i; in_stock := s |}
  | _, _, _, _, _, _ =>
      Raise (ValidationError (field_error "title" t ++ field_error "description" d ++
                              field_error "price" p ++ field_error "category" c ++
                              field_error "image" i ++ field_error "in_stock" s))
  end.

(** [ProductOut(...)] on the keyword arguments [kw] *)
Definition ProductOut_validate (kw : document) : result ProductOut :=
  let i := required str_validator (kw !! "id") in
  match ProductIn_validate kw, i with
  | Ok p, Some i => Ok {| product := p; id := i |}
  | Ok _, None => Raise (ValidationError ["id"])
  | Raise (ValidationError fields), _ => Raise (ValidationError (fields ++ field_error "id" i))
  | Raise e, _ => Raise e
  end.

End Validation.

Definition of_optional (o : option string) : value :=
  match o with
  | Some s => VStr s
  | None => VNone
  end.

(** [product.dict()] *)
Definition dict (p : ProductIn) : document :=
  <["title" := VStr (title p)]>
  (<["description" := of_optional (description p)]>
  (<["price" := VFloat (price p)]>
  (<["category" := VStr (category p)]>
  (<["image" := of_optional (image p)]>
  (<["in_stock" := VBool (in_stock p)]> ∅))))).

(** ** The database handle *)

(** The calls that reach the driver. *)
Inductive call :=
| ListCollectionNames
| Find (collection : string) (filt : document)
| FindOne (collection : string) (filt : document)
| CountDocuments (collection : string) (filt : document)
| InsertOne (collection : string) (doc : document).

(** A [pymongo] database: its name, the documents of each collection in
    insertion order, what [list_collection_names] answers (the names, or the
    characters of the text of the exception it raises), the identifiers the driver generates
    (the [n]-th one is [new_oid n]) with the number generated so far, and
    the journal of the calls made, latest first. *)
Record Database := {
  name : string;
  data : gmap string (list document);
  collection_names : list N + list string;
  new_oid : nat -> string;
  generated : nat;
  journal : list call;
}.

Definition log (c : call) (db : Database) : Database :=
  {| name := name db; data := data db; collection_names := collection_names db;
     new_oid := new_oid db; generated := generated db; journal := c :: journal db |}.

(** [db[c]]: a collection never written to is empty. *)
Definition collection (db : Database) (c : string) : list document :=
  default [] (data db !! c).

Definition store (c : string) (docs : list document) (generated' : nat) (db : Database) : Database :=
  {| name := name db; data := <[c := docs]> (data db); collection_names := collection_names db;
     new_oid := new_oid db; generated := generated'; journal := journal db |}.

(** Equality of two BSON values as a query compares them.  The filters of
    this service hold strings and identifiers only; numbers of different
    types are not compared here. *)
Definition bson_eqb (a b : value) : bool :=
  match a, b with
  | VNone, VNone => true
  | VBool x, VBool y => Bool.eqb x y
  | VInt x, VInt y => Z.eqb x y
  | VFloat x, VFloat y =>
      match SFcompare x y with
      | Some Eq => true
      | Some _ => false
      | None => is_nan x && is_nan y
      end
  | VStr x, VStr y => String.eqb x y
  | VOid x, VOid y => String.eqb x y
  | _, _ => false
  end.

(** A document matches a filter when it has every field of the filter with
    an equal value; an absent field is [null]. *)
Definition matches (filt doc : document) : bool :=
  forallb (fun kv => bson_eqb (default VNone (doc !! kv.1)) kv.2) (map_to_list filt).

Definition list_collection_names (db : Database) : (list N + list string) * Database :=
  (collection_names db, log ListCollectionNames db).

Definition find (c : string) (filt : document) (db : Database) : list document * Database :=
  (List.filter (matches filt) (collection db c), log (Find c filt) db).

Definition find_one (c : string) (filt : document) (db : Database) : option document * Database :=
  (head (List.filter (matches filt) (collection db c)), log (FindOne c filt) db).

Definition count_documents (c : string) (filt : document) (db : Database) : Z * Database :=
  (Z.of_nat (length (List.filter (matches filt) (collection db c))), log (CountDocuments c filt) db).

(** [db[c].insert_one(doc)]: a document without [_id] gets the next generated
    one; the unique index on [_id] rejects a second document with the same
    identifier. *)
Definition insert_one (c : string) (doc : document) (db : Database) : result value * Database :=
  let '(doc', n) :=
    match doc !! "_id" with
    | Some _ => (doc, generated db)
    | None => (<["_id" := VOid (new_oid db (generated db))]> doc, S (generated db))
    end in
  let inserted_id := default VNone (doc' !! "_id") in
  if existsb (fun d => bson_eqb (default VNone (d !! "_id")) inserted_id) (collection db c)
  then (Raise DuplicateKeyError, log (InsertOne c doc) (store c (collection db c) n db))
  else (Ok inserted_id, log (InsertOne c doc) (store c (collection db c ++ [doc']) n db)).

(** ** The gateway of [database.py] *)

(** Modelled from the spec: [create_document] of [database.py], which is not
    among the sources.  It inserts one record and returns the newly generated
    identifier as text; it fails with a database error when the store
    rejects the write. *)
Definition create_document `{Runtime} (c : string) (record : document) (db : Database)
  : result string * Database :=
  match insert_one c record db with
  | (Ok inserted_id, db') => (Ok (py_str inserted_id), db')
  | (Raise _, db') => (Raise DatabaseError, db')
  end.

(** Modelled from the spec: [get_documents] of [database.py], which is not
    among the sources.  It returns up to [limit] matching records in the
    order of the store, as a list. *)
Definition get_documents (c : string) (filt : document) (limit : Z) (db : Database)
  : list document * Database :=
  let '(docs, db') := find c filt db in
  (take (Z.to_nat limit) docs, db').

(** ** The application *)

(** What FastAPI answers: the value a handler returns (status 200), the
    [HTTPException] it raises, the 422 of a request body that fails
    validation, or the 500 of any other exception.  The rendering of a
    returned value as JSON is outside the embedding. *)
Inductive response (A : Type) :=
| Return (a : A)
| HTTPException (status_code : Z) (detail : string)
| RequestValidationError (fields : list string)
| InternalServerError (e : exception).
Arguments Return {A} a.
Arguments HTTPException {A} status_code detail.
Arguments RequestValidationError {A} fields.
Arguments InternalServerError {A} e.

Definition status {A} (r : response A) : Z :=
  match r with
  | Return _ => 200
  | HTTPException status_code _ => status_code
  | RequestValidationError _ => 422
  | InternalServerError _ => 500
  end.

Definition read_root : response document :=
  Return {[ "message" := VStr "E-Commerce Backend is running" ]}.

Definition hello : response document :=
  Return {[ "message" := VStr "Hello from the backend API!" ]}.

(** The environment variables [test_database] reads with [os.getenv]. *)
Record environ := {
  DATABASE_URL : option string;
  DATABASE_NAME : option string;
}.

(** [if os.getenv(...)]: set and not empty. *)
Definition is_set (var : option string) : bool :=
  match var with
  | Some s => negb (String.eqb s "")
  | None => false
  end.

(** The dictionary [test_database] returns. *)
Record report := {
  backend : string;
  database : string;
  database_url : option string;
  database_name : option string;
  connection_status : string;
  collections : list string;
}.

Definition set_database (v : string) (r : report) : report :=
  {| backend := backend r; database := v; database_url := database_url r;
     database_name := database_name r; connection_status := connection_status r;
     collections := collections r |}.
Definition set_database_url (v : option string) (r : report) : report :=
  {| backend := backend r; database := database r; database_url := v;
     database_name := database_name r; connection_status := connection_status r;
     collections := collections r |}.
Definition set_database_name (v : option string) (r : report) : report :=
  {| backend := backend r; database := database r; database_url := database_url r;
     database_name := v; connection_status := connection_status r;
     collections := collections r |}.
Definition set_connection_status (v : string) (r : report) : report :=
  {| backend := backend r; database := database r; database_url := database_url r;
     database_name := database_name r; connection_status := v;
     collections := collections r |}.
Definition set_collections (v : list string) (r : report) : report :=
  {| backend := backend r; database := database r; database_url := database_url r;
     database_name := database_name r; connection_status := connection_status r;
     collections := v |}.

(** [s[:n]]: the first [n] characters, or all of them when there are
    fewer. *)
Definition slice_to (n : nat) (s : list N) : list N := take n s.

(** [test_database].  A [pymongo] database always has a [name]; an
    exception of [list_collection_names] is caught by the inner handler, and
    nothing else in the outer [try] raises. *)
Definition test_database (env : environ) (db : option Database)
  : response report * option Database :=
  let response :=
    {| backend := "✅ Running"; database := "❌ Not Available"; database_url := None;
       database_name := None; connection_status := "Not Connected"; collections := [] |} in
  let '(response, db) :=
    match db with
    | Some d =>
        let response := set_database "✅ Available" response in
        let response := set_database_url (Some "✅ Configured") response in
        let response := set_database_name (Some (name d)) response in
        let response := set_connection_status "Connected" response in
        match list_collection_names d with
        | (inr names, d) =>
            let response := set_collections (take 10 names) response in
            (set_database "✅ Connected & Working" response, Some d)
        | (inl e, d) =>
            (set_database ("⚠️  Connected but Error: " ++ utf8 (slice_to 50 e)) response, Some d)
        end
    | None => (set_database "⚠️  Available but not initialized" response, None)
    end in
  let response :=
    set_database_url (Some (if is_set (DATABASE_URL env) then "✅ Set" else "❌ Not Set")) response in
  let response :=
    set_database_name (Some (if is_set (DATABASE_NAME env) then "✅ Set" else "❌ Not Set")) response in
  (Return response, db).

Section Handlers.
Context `{Runtime}.

(** [_doc_to_product] *)
Definition _doc_to_product (doc : document) : result ProductOut :=
  let id := py_str (default VNone (doc !! "_id")) in
  let title := default VNone (doc !! "title") in
  let description := default VNone (doc !! "description") in
  price ← py_float (default (VInt 0) (doc !! "price"));
  let category := default VNone (doc !! "category") in
  let image := default VNone (doc !! "image") in
  let in_stock := py_bool (default (VBool true) (doc !! "in_stock")) in
  ProductOut_validate
    (<["id" := VStr id]>
    (<["title" := title]>
    (<["description" := description]>
    (<["price" := VFloat price]>
    (<["category" := category]>
    (<["image" := image]>
    (<["in_stock" := VBool in_stock]> ∅))))))).

(** [[f(d) for d in docs]]: the first exception ends the comprehension. *)
Fixpoint comprehension {A B} (f : A -> result B) (docs : list A) : result (list B) :=
  match docs with
  | [] => Ok []
  | d :: docs => b ← f d; bs ← comprehension f docs; Ok (b :: bs)
  end.

Definition not_configured {A} : response A := HTTPException 500 "Database not configured".

(** [list_products]; [category] is the optional query parameter. *)
Definition list_products (category : option string) (limit : Z) (db : option Database)
  : response (list ProductOut) * option Database :=
  match db with
  | None => (not_configured, None)
  | Some d =>
      let filt : document :=
        match category with
        | Some c => if negb (String.eqb c "") then {[ "category" := VStr c ]} else ∅
        | None => ∅
        end in
      let '(docs, d) := get_documents "product" filt limit d in
      match comprehension _doc_to_product docs with
      | Ok products => (Return products, Some d)
      | Raise e => (InternalServerError e, Some d)
      end
  end.

(** [create_product] *)
Definition create_product (product : ProductIn) (db : option Database)
  : response string * option Database :=
  match db with
  | None => (not_configured, None)
  | Some d =>
      match create_document "product" (dict product) d with
      | (Ok new_id, d) => (Return new_id, Some d)
      | (Raise e, d) => (InternalServerError e, Some d)
      end
  end.

(** [POST /api/products]: FastAPI builds the [ProductIn] from the request
    body and calls the handler only when the body validates. *)
Definition post_product (body : document) (db : option Database)
  : response string * option Database :=
  match ProductIn_validate body with
  | Ok product => create_product product db
  | Raise (ValidationError fields) => (RequestValidationError fields, db)
  | Raise e => (InternalServerError e, db)
  end.

(** [get_product] *)
Definition get_product (product_id : string) (db : option Database)
  : response ProductOut * option Database :=
  match db with
  | None => (not_configured, None)
  | Some d =>
      match ObjectId product_id with
      | Raise _ => (HTTPException 400 "Invalid product id", Some d)
      | Ok oid =>
          let '(doc, d) := find_one "product" {[ "_id" := VOid oid ]} d in
          match doc with
          | None => (HTTPException 404 "Product not found", Some d)
          | Some doc =>
              if bool_decide (doc = ∅) then (HTTPException 404 "Product not found", Some d)
              else
                match _doc_to_product doc with
                | Ok product => (Return product, Some d)
                | Raise e => (InternalServerError e, Some d)
                end
          end
      end
  end.

Definition demo_product (title description : string) (price : spec_float)
    (category image : string) (in_stock : bool) : document :=
  <["title" := VStr title]>
  (<["description" := VStr description]>
  (<["price" := VFloat price]>
  (<["category" := VStr category]>
  (<["image" := VStr image]>
  (<["in_stock" := VBool in_stock]> ∅))))).

Definition demo : list document := [
  demo_product "NeoCube Pro" "Futuristic modular cube speaker with reactive LEDs."
    (decimal 19999 2) "audio"
    "https://images.unsplash.com/photo-1518779578993-ec3579fee39f?auto=format&fit=crop&w=800&q=60"
    true;
  demo_product "Iris Orbit Lamp" "Iridescent smart lamp that orbits hues through the day."
    (float_of_Z 129) "lighting"
    "https://images.unsplash.com/photo-1496307042754-b4aa456c4a2d?auto=format&fit=crop&w=800&q=60"
    true;
  demo_product "Glyph Headphones" "Metallic over-ears with spatial audio and ANC."
    (float_of_Z 249) "audio"
    "https://images.unsplash.com/photo-1518443747120-6f6f2d80b7a1?auto=format&fit=crop&w=800&q=60"
    true;
  demo_product "Prism Desk Mat" "Soft-touch mat with subtle neon edge glow."
    (float_of_Z 39) "accessories"
    "https://images.unsplash.com/photo-1473186578172-c141e6798cf4?auto=format&fit=crop&w=800&q=60"
    true
].

(** The loop of [seed_products]: [for d in demo: create_document(...);
    inserted += 1]. *)
Fixpoint seed_loop (demo : list document) (inserted : Z) (d : Database)
  : response Z * option Database :=
  match demo with
  | [] => (Return inserted, Some d)
  | doc :: demo =>
      match create_document "product" doc d with
      | (Ok _, d) => seed_loop demo (inserted + 1) d
      | (Raise e, d) => (InternalServerError e, Some d)
      end
  end.

(** [seed_products] *)
Definition seed_products (db : option Database) : response Z * option Database :=
  match db with
  | None => (not_configured, None)
  | Some d =>
      let '(n, d) := count_documents "product" ∅ d in
      if n >? 0 then (Return 0, Some d)
      else seed_loop demo 0 d
  end.

End Handlers.

(** ** Stored records and sample states *)

#[global] Instance spec_float_eq_dec : EqDecision spec_float.
Proof. solve_decision. Defined.

#[global] Instance value_eq_dec : EqDecision value.
Proof. solve_decision. Defined.

(** No document of [docs] has the identifier [v]. *)
Definition absent (v : value) (docs : list document) : Prop :=
  forall doc, doc ∈ docs -> doc !! "_id" <> Some v.

(** The stored category of [doc] is exactly the string [c]. *)
Definition has_category (c : string) (doc : document) : bool :=
  bool_decide (doc !! "category" = Some (VStr c)).

(** The documents a run of insertions stores: each with the identifier
    generated for it. *)
Definition with_ids (gen : nat -> string) (docs : list document) (first : nat) : list document :=
  zip_with (fun doc n => <["_id" := VOid (gen n)]> doc) docs (seq first (length docs)).

(** A driver for the sample states: identifiers that count up. *)
Definition sample_oid (n : nat) : string :=
  match n with
  | 0%nat => "65f000000000000000000000"
  | 1%nat => "65f000000000000000000001"
  | 2%nat => "65f000000000000000000002"
  | 3%nat => "65f000000000000000000003"
  | _ => "65f0000000000000000000ff"
  end.

(** A connected database with no document. *)
Definition empty_shop : Database := {|
  name := "shop";
  data := ∅;
  collection_names := inr [];
  new_oid := sample_oid;
  generated := 0;
  journal := [];
|}.

(** A database holding one loudspeaker. *)
Definition speaker : document :=
  <["_id" := VOid "65f000000000000000000000"]>
    (demo_product "NeoCube Pro" "Futuristic modular cube speaker with reactive LEDs."
       (decimal 19999 2) "audio" "https://example.org/neocube.jpg" true).

Definition audio_shop : Database := {|
  name := "shop";
  data := {[ "product" := [speaker] ]};
  collection_names := inr ["product"];
  new_oid := sample_oid;
  generated := 1;
  journal := [];
|}.

(** A request body with a negative price. *)
Definition negative_body : document :=
  <["title" := VStr "Lamp"]> (<["price" := VInt (-1)]> (<["category" := VStr "lighting"]> ∅)).

Definition lamp : ProductIn := {|
  title := "Lamp";
  description := None;
  price := float_of_Z 129;
  category := "lighting";
  image := None;
  in_stock := true;
|}.

(** A stored record with nothing but its identifier, title and category. *)
Definition bare_lamp : document :=
  <["_id" := VOid "65f000000000000000000001"]>
    (<["title" := VStr "Lamp"]> (<["category" := VStr "lighting"]> ∅)).

(** The filter [list_products] builds from its [category] parameter. *)
Definition category_filter (category : option string) : document :=
  match category with
  | Some c => if negb (String.eqb c "") then {[ "category" := VStr c ]} else ∅
  | None => ∅
  end.

(** The three fields a product input must give. *)
Definition required_fields : list string := ["title"; "price"; "category"].

(** Request bodies: one with the required fields only, one without a title,
    one whose price is not a number. *)
Definition lamp_body : document :=
  <["title" := VStr "Lamp"]>
    (<["price" := VFloat (float_of_Z 129)]> (<["category" := VStr "lighting"]> ∅)).

Definition untitled_body : document :=
  <["price" := VFloat (float_of_Z 129)]> (<["category" := VStr "lighting"]> ∅).

Definition nan_body : document :=
  <["title" := VStr "Lamp"]> (<["price" := VFloat S754_nan]> (<["category" := VStr "lighting"]> ∅)).

(** Stored records that are not products: one without a title, one whose
    price is null, one whose price is negative. *)
Definition untitled_doc : document :=
  <["_id" := VOid "65f000000000000000000002"]> (<["category" := VStr "lighting"]> ∅).

Definition unpriced_doc : document :=
  <["_id" := VOid "65f000000000000000000002"]>
    (<["title" := VStr "Lamp"]> (<["price" := VNone]> (<["category" := VStr "lighting"]> ∅))).

Definition refund_doc : document :=
  <["_id" := VOid "65f000000000000000000002"]>
    (<["title" := VStr "Refund"]>
    (<["price" := VFloat (float_of_Z (-5))]> (<["category" := VStr "lighting"]> ∅))).

(** A database whose one product record has a null price. *)
Definition broken_shop : Database := {|
  name := "shop";
  data := {[ "product" := [unpriced_doc] ]};
  collection_names := inr ["product"];
  new_oid := sample_oid;
  generated := 3;
  journal := [];
|}.

(** A second product input. *)
Definition mat : ProductIn := {|
  title := "Desk Mat";
  description := Some "Soft-touch mat.";
  price := float_of_Z 39;
  category := "accessories";
  image := None;
  in_stock := false;
|}.

(** The demo records of [seed_products] as product inputs. *)
Definition demo_inputs : list ProductIn := [
  {| title := "NeoCube Pro";
     description := Some "Futuristic modular cube speaker with reactive LEDs.";
     price := decimal 19999 2; category := "audio";
     image := Some "https://images.unsplash.com/photo-1518779578993-ec3579fee39f?auto=format&fit=crop&w=800&q=60";
     in_stock := true |};
  {| title := "Iris Orbit Lamp";
     description := Some "Iridescent smart lamp that orbits hues through the day.";
     price := float_of_Z 129; category := "lighting";
     image := Some "https://images.unsplash.com/photo-1496307042754-b4aa456c4a2d?auto=format&fit=crop&w=800&q=60";
     in_stock := true |};
  {| title := "Glyph Headphones";
     description := Some "Metallic over-ears with spatial audio and ANC.";
     price := float_of_Z 249; category := "audio";
     image := Some "https://images.unsplash.com/photo-1518443747120-6f6f2d80b7a1?auto=format&fit=crop&w=800&q=60";
     in_stock := true |};
  {| title := "Prism Desk Mat";
     description := Some "Soft-touch mat with subtle neon edge glow.";
     price := float_of_Z 39; category := "accessories";
     image := Some "https://images.unsplash.com/photo-1473186578172-c141e6798cf4?auto=format&fit=crop&w=800&q=60";
     in_stock := true |}
].

(** The outputs of a run of products stored under generated identifiers. *)
Definition outputs (gen : nat -> string) (ps : list ProductIn) (first : nat) : list ProductOut :=
  zip_with (fun p n => {| product := p; id := gen n |}) ps (seq first (length ps)).

(** The loudspeaker of [audio_shop] as the service returns it. *)
Definition speaker_out : ProductOut := {|
  product := {| title := "NeoCube Pro";
                description := Some "Futuristic modular cube speaker with reactive LEDs.";
                price := decimal 19999 2; category := "audio";
                image := Some "https://example.org/neocube.jpg"; in_stock := true |};
  id := "65f000000000000000000000";
|}.

(** A database whose listing of collections fails with a text of sixty
    characters outside ASCII (the letter e with an acute accent, U+00E9). *)
Definition failing_shop : Database := {|
  name := "shop";
  data := ∅;
  collection_names := inl (replicate 60 233%N);
  new_oid := sample_oid;
  generated := 0;
  journal := [];
|}.

Definition no_environ : environ := {| DATABASE_URL := None; DATABASE_NAME := None |}.

(** * Properties *)

(** ** Text and identifiers *)

Lemma utf8_ascii (s : list N) :
  Forall (fun c => (c < 128)%N) s ->
  utf8 s = string_of_list_ascii (ascii_of_N <$> s).
Proof.
  induction 1 as [|c s Hc _ IH]; simpl; [done|].
  unfold utf8_char. apply N.ltb_lt in Hc. rewrite Hc. simpl. by rewrite IH.
Qed.

Lemma lower_hex_is_hex (c : ascii) : is_lower_hex c = true -> is_hex c = true.
Proof. unfold is_hex, is_lower_hex. intros ->. reflexivity. Qed.

Lemma lower_of_lower_hex (c : ascii) : is_lower_hex c = true -> lower c = c.
Proof.
  destruct c as [[] [] [] [] [] [] [] []]; vm_compute; congruence.
Qed.

Lemma hex_not_space (c : ascii) : is_hex c = true -> is_space c = false.
Proof.
  destruct c as [[] [] [] [] [] [] [] []]; vm_compute; congruence.
Qed.

(** Hexadecimal digits without blanks decode pair by pair. *)
Lemma fromhex_digits (s : string) :
  string_forallb is_hex s = true ->
  (Nat.even (String.length s) = true ->
   fromhex_from None s = Some (string_map lower s)) /\
  (forall t, Nat.even (String.length s) = false ->
   fromhex_from (Some t) s = Some (String (lower t) (string_map lower s))).
Proof.
  induction s as [|c s IH]; [by split|].
  intros Hall. cbn [string_forallb] in Hall. apply andb_prop in Hall as [Hc Hs].
  destruct (IH Hs) as [IHeven IHodd].
  change (String.length (String c s)) with (S (String.length s)).
  rewrite Nat.even_succ. unfold Nat.odd.
  cbn [fromhex_from string_map]. rewrite Hc, (hex_not_space c Hc).
  destruct (Nat.even (String.length s)); simpl; split; try discriminate.
  - intros t _. by rewrite IHeven.
  - intros _. by apply IHodd.
Qed.

Lemma ObjectId_digits (s : string) :
  String.length s = 24%nat ->
  string_forallb is_hex s = true ->
  ObjectId s = Ok (string_map lower s).
Proof.
  intros Hlen Hs. unfold ObjectId, fromhex. rewrite Hlen. simpl.
  destruct (fromhex_digits s Hs) as [Heven _]. rewrite Heven; [done|].
  by rewrite Hlen.
Qed.

Lemma ObjectId_of_str (hex : string) : wf_oid hex = true -> ObjectId hex = Ok hex.
Proof.
  unfold wf_oid. intros [Hlen Hall]%andb_prop. apply Nat.eqb_eq in Hlen.
  assert (Hs : string_forallb is_hex hex = true /\ string_map lower hex = hex).
  { clear Hlen. induction hex as [|c s IH]; simpl in *; [done|].
    apply andb_prop in Hall as [Hc Hs]. destruct (IH Hs) as [-> ->].
    by rewrite (lower_hex_is_hex c Hc), (lower_of_lower_hex c Hc). }
  destruct Hs as [Hhex Hlow]. rewrite (ObjectId_digits hex Hlen Hhex). by rewrite Hlow.
Qed.

(** ** Queries *)

Lemma matches_empty (doc : document) : matches ∅ doc = true.
Proof. unfold matches. by rewrite map_to_list_empty. Qed.

Lemma matches_singleton (k : string) (v : value) (doc : document) :
  matches {[ k := v ]} doc = bson_eqb (default VNone (doc !! k)) v.
Proof. unfold matches. rewrite map_to_list_singleton. simpl. apply andb_true_r. Qed.

Lemma bson_eqb_str (v : value) (s : string) : bson_eqb v (VStr s) = true <-> v = VStr s.
Proof.
  destruct v; simpl; try (split; [discriminate | congruence]).
  rewrite String.eqb_eq. split; congruence.
Qed.

Lemma bson_eqb_oid (v : value) (hex : string) : bson_eqb v (VOid hex) = true <-> v = VOid hex.
Proof.
  destruct v; simpl; try (split; [discriminate | congruence]).
  rewrite String.eqb_eq. split; congruence.
Qed.

Lemma filter_all {A} (p : A -> bool) (l : list A) :
  (forall x, p x = true) -> List.filter p l = l.
Proof. intros Hp. induction l as [|x l IH]; simpl; [done|]. by rewrite Hp, IH. Qed.

Lemma filter_none {A} (p : A -> bool) (l : list A) :
  (forall x, x ∈ l -> p x = false) -> List.filter p l = [].
Proof.
  induction l as [|x l IH]; intros Hp; simpl; [done|].
  rewrite (Hp x) by left. apply IH. intros y Hy. apply Hp. by right.
Qed.

Lemma filter_ext_bool {A} (p q : A -> bool) (l : list A) :
  (forall x, p x = q x) -> List.filter p l = List.filter q l.
Proof. intros Hpq. induction l as [|x l IH]; simpl; [done|]. by rewrite Hpq, IH. Qed.

(** ** The endpoints without a store, and the diagnostic report *)

Section Unconfigured.
Context `{Runtime}.

(** C2: with no database handle, listing, creating, getting and seeding all
    answer 500 "Database not configured" and the handle stays absent, so no
    call reaches a store; the diagnostic endpoint still answers 200, with
    the not-initialised text in [database], "Not Connected" and no
    collection. *)
Theorem unconfigured_store :
  (forall category limit, list_products category limit None = (HTTPException 500 "Database not configured", None)) /\
  (forall product, create_product product None = (HTTPException 500 "Database not configured", None)) /\
  (forall product_id, get_product product_id None = (HTTPException 500 "Database not configured", None)) /\
  seed_products None = (HTTPException 500 "Database not configured", None) /\
  (forall env, exists r,
      test_database env None = (Return r, None) /\
      status (Return r) = 200 /\
      database r = "⚠️  Available but not initialized" /\
      connection_status r = "Not Connected" /\
      collections r = []).
Proof.
  repeat split; try reflexivity.
  intros env. eexists. repeat split; reflexivity.
Qed.


(** C10: an empty [category] is falsy, so the listing passes the empty
    filter to the gateway, exactly as when the parameter is omitted. *)
Theorem list_products_empty_category (limit : Z) (db : option Database) :
  list_products (Some "") limit db = list_products None limit db /\
  list_products (Some "") limit db =
    match db with
    | None => (not_configured, None)
    | Some d =>
        let '(docs, d) := get_documents "product" ∅ limit d in
        match comprehension _doc_to_product docs with
        | Ok products => (Return products, Some d)
        | Raise e => (InternalServerError e, Some d)
        end
    end.
Proof. split; reflexivity. Qed.

End Unconfigured.

(** C9: the diagnostic endpoint always returns a report with status 200.
    When listing the collections raises, [database] is the fixed text
    followed by the first 50 characters of the exception text (all of them
    when there are fewer), and no collection is reported; otherwise at most
    10 collection names are reported.  The characters kept are written in
    UTF-8; for an ASCII text that is one byte for each. *)
Theorem test_database_total (env : environ) (db : option Database) :
  exists r db',
    test_database env db = (Return r, db') /\
    status (Return r) = 200 /\
    (length (collections r) <= 10)%nat /\
    match db with
    | None => database r = "⚠️  Available but not initialized" /\ collections r = []
    | Some d =>
        match collection_names d with
        | inl e =>
            database r = "⚠️  Connected but Error: " ++ utf8 (take 50 e) /\
            take 50 e `prefix_of` e /\
            length (take 50 e) = Nat.min 50 (length e) /\
            (Forall (fun c => (c < 128)%N) e ->
             utf8 (take 50 e) = string_of_list_ascii (ascii_of_N <$> take 50 e)) /\
            collections r = []
        | inr names =>
            database r = "✅ Connected & Working" /\ collections r = take 10 names
        end
    end.
Proof.
  destruct db as [d|]; unfold test_database, list_collection_names.
  - destruct (collection_names d) as [e|names] eqn:Hnames;
      eexists _, _; (split; [reflexivity|]).
    + split; [reflexivity|]. split; [simpl; lia|]. split; [reflexivity|].
      split; [apply prefix_take|]. split; [apply length_take|]. split; [|reflexivity].
      intros Hascii. apply utf8_ascii. by apply Forall_take.
    + split; [reflexivity|]. split; [|by split].
      cbn [collections set_collections set_database set_database_url set_database_name].
      rewrite length_take. lia.
  - eexists _, _. split; [reflexivity|]. simpl. repeat split. lia.
Qed.

(** ** The conversion of stored records *)

Section Conversion.
Context `{Runtime}.

(** The keyword arguments [_doc_to_product] passes to [ProductOut]. *)
Lemma ProductOut_validate_typed (i t c : string) (d im : option string) (x : spec_float) (s : bool) :
  SFleb zero x = true ->
  ProductOut_validate
    (<["id" := VStr i]>
    (<["title" := VStr t]>
    (<["description" := of_optional d]>
    (<["price" := VFloat x]>
    (<["category" := VStr c]>
    (<["image" := of_optional im]>
    (<["in_stock" := VBool s]> ∅)))))))
  = Ok {| product := {| title := t; description := d; price := x; category := c;
                        image := im; in_stock := s |};
          id := i |}.
Proof.
  intros Hx. unfold ProductOut_validate, ProductIn_validate.
  simplify_map_eq. simpl. unfold ge0. rewrite Hx.
  destruct d, im; reflexivity.
Qed.

Lemma of_optional_str (o : option value) :
  o = None \/ o = Some VNone \/ (exists s, o = Some (VStr s)) ->
  default VNone o = of_optional (match o with Some (VStr s) => Some s | _ => None end).
Proof. intros [->|[->|[s ->]]]; reflexivity. Qed.

(** C6: for a stored record with a title and a category, whose optional
    fields are each absent or of their type, the conversion returns a
    product: [id] is [str] of the stored [_id], an absent [description] or
    [image] is none, an absent [in_stock] is true and an absent [price] is
    [float(0)], that is 0.0. *)
Theorem doc_to_product_defaults (doc : document) (t c : string) :
  doc !! "title" = Some (VStr t) ->
  doc !! "category" = Some (VStr c) ->
  (doc !! "description" = None \/ doc !! "description" = Some VNone \/
   exists s, doc !! "description" = Some (VStr s)) ->
  (doc !! "image" = None \/ doc !! "image" = Some VNone \/
   exists s, doc !! "image" = Some (VStr s)) ->
  (doc !! "price" = None \/
   exists x, doc !! "price" = Some (VFloat x) /\ SFleb zero x = true) ->
  _doc_to_product doc =
    Ok {| product :=
            {| title := t;
               description := match doc !! "description" with Some (VStr s) => Some s | _ => None end;
               price := match doc !! "price" with Some (VFloat x) => x | _ => S754_zero false end;
               category := c;
               image := match doc !! "image" with Some (VStr s) => Some s | _ => None end;
               in_stock := match doc !! "in_stock" with Some v => py_bool v | None => true end |};
          id := py_str (default VNone (doc !! "_id")) |}.
Proof.
  intros Ht Hc Hd Hi Hp. unfold _doc_to_product.
  rewrite Ht, Hc, (of_optional_str _ Hd), (of_optional_str _ Hi). simpl.
  assert (Hs : py_bool (default (VBool true) (doc !! "in_stock")) =
               match doc !! "in_stock" with Some v => py_bool v | None => true end)
    by (destruct (doc !! "in_stock"); reflexivity).
  rewrite Hs. clear Hs.
  destruct Hp as [->|[x [-> Hx]]]; simpl.
  - by apply ProductOut_validate_typed.
  - by apply ProductOut_validate_typed.
Qed.

(** What [create_document] stores for a product converts back to it. *)
Lemma doc_to_product_stored (p : ProductIn) (oid : string) :
  SFleb zero (price p) = true ->
  _doc_to_product (<["_id" := VOid oid]> (dict p)) = Ok {| product := p; id := oid |}.
Proof.
  intros Hp. destruct p as [t d x c i s]. simpl in Hp.
  unfold _doc_to_product, dict. simplify_map_eq. simpl.
  destruct s; simpl; by apply ProductOut_validate_typed.
Qed.

End Conversion.

(** ** Reading and writing the store *)

Lemma collection_log (c : string) (k : call) (d : Database) :
  collection (log k d) c = collection d c.
Proof. reflexivity. Qed.

Lemma collection_store (c : string) (docs : list document) (n : nat) (d : Database) :
  collection (store c docs n d) c = docs.
Proof. unfold collection, store. simpl. by rewrite lookup_insert_eq. Qed.

Lemma existsb_absent (oid : string) (docs : list document) :
  existsb (fun d => bson_eqb (default VNone (d !! "_id")) (VOid oid)) docs = false <->
  absent (VOid oid) docs.
Proof.
  unfold absent. induction docs as [|doc docs IH]; simpl.
  - split; [intros _ doc Hin; inversion Hin | done].
  - rewrite orb_false_iff, IH. split.
    + intros [Hdoc Hdocs] doc' [->|Hin]%elem_of_cons; [|by apply Hdocs].
      intros Hid. rewrite Hid in Hdoc. simpl in Hdoc. by rewrite String.eqb_refl in Hdoc.
    + intros Hall. split.
      * destruct (bson_eqb _ _) eqn:Heq; [|done].
        apply bson_eqb_oid in Heq. exfalso. apply (Hall doc); [by left|].
        destruct (doc !! "_id"); simpl in Heq; congruence.
      * intros doc' Hin. apply Hall. by right.
Qed.

Lemma find_by_id_absent (oid : string) (docs : list document) :
  absent (VOid oid) docs ->
  List.filter (matches {[ "_id" := VOid oid ]}) docs = [].
Proof.
  intros Habs. apply filter_none. intros doc Hin. rewrite matches_singleton.
  destruct (bson_eqb _ _) eqn:Heq; [|done].
  apply bson_eqb_oid in Heq. exfalso. apply (Habs doc Hin).
  destruct (doc !! "_id"); simpl in Heq; congruence.
Qed.

Lemma filter_app_bool {A} (p : A -> bool) (l k : list A) :
  List.filter p (l ++ k) = (List.filter p l ++ List.filter p k)%list.
Proof. induction l as [|x l IH]; simpl; [done|]. destruct (p x); simpl; by rewrite IH. Qed.

Section Store.
Context `{Runtime}.

(** A document without [_id] is stored under the next generated identifier
    when no stored document has it. *)
Lemma create_document_fresh (c : string) (doc : document) (d : Database) :
  doc !! "_id" = None ->
  absent (VOid (new_oid d (generated d))) (collection d c) ->
  create_document c doc d =
    (Ok (new_oid d (generated d)),
     log (InsertOne c doc)
       (store c (collection d c ++ [<["_id" := VOid (new_oid d (generated d))]> doc])
          (S (generated d)) d)).
Proof.
  intros Hid Habs. unfold create_document, insert_one. rewrite Hid.
  rewrite lookup_insert_eq. simpl.
  apply existsb_absent in Habs. by rewrite Habs.
Qed.

(** The generated identifier is taken: the write is rejected and the
    collection keeps its documents. *)
Lemma create_document_taken (c : string) (doc : document) (d : Database) :
  doc !! "_id" = None ->
  ~ absent (VOid (new_oid d (generated d))) (collection d c) ->
  create_document c doc d =
    (Raise DatabaseError,
     log (InsertOne c doc) (store c (collection d c) (S (generated d)) d)).
Proof.
  intros Hid Habs. unfold create_document, insert_one. rewrite Hid.
  rewrite lookup_insert_eq. simpl.
  destruct (existsb _ _) eqn:Hex; [done|].
  by apply existsb_absent in Hex.
Qed.

Lemma dict_no_id (p : ProductIn) : dict p !! "_id" = None.
Proof. reflexivity. Qed.

(** C1: for a product input with [price >= 0], on a store whose driver
    generates well-formed identifiers: [create_product] succeeds when the
    generated identifier is not taken, and whenever it returns an id,
    [get_product] of that id returns the input's six fields unchanged
    together with the id. *)
Theorem create_then_get (d : Database) (p : ProductIn) :
  SFleb zero (price p) = true ->
  wf_oid (new_oid d (generated d)) = true ->
  (absent (VOid (new_oid d (generated d))) (collection d "product") ->
   exists d', create_product p (Some d) = (Return (new_oid d (generated d)), Some d')) /\
  (forall new_id db',
     create_product p (Some d) = (Return new_id, db') ->
     exists db'', get_product new_id db' = (Return {| product := p; id := new_id |}, db'')).
Proof.
  intros Hprice Hwf. split.
  - intros Habs. unfold create_product.
    rewrite (create_document_fresh _ _ _ (dict_no_id p) Habs). by eexists.
  - intros new_id db'. unfold create_product.
    destruct (existsb (fun e => bson_eqb (default VNone (e !! "_id"))
                                  (VOid (new_oid d (generated d))))
                (collection d "product")) eqn:Hex;
      [assert (Htaken : ~ absent (VOid (new_oid d (generated d))) (collection d "product"))
         by (intros Habs%existsb_absent; congruence)
      |apply existsb_absent in Hex as Habs]; [|clear Hex].
    + rewrite (create_document_taken _ _ _ (dict_no_id p) Htaken). discriminate.
    + rewrite (create_document_fresh _ _ _ (dict_no_id p) Habs).
      intros [= <- <-]. unfold get_product.
      rewrite (ObjectId_of_str _ Hwf). unfold find_one.
      rewrite collection_log, collection_store, filter_app_bool.
      rewrite (find_by_id_absent _ _ Habs). simpl.
      rewrite matches_singleton, lookup_insert_eq. simpl. rewrite String.eqb_refl. simpl.
      rewrite bool_decide_eq_false_2.
      * rewrite (doc_to_product_stored _ _ Hprice). by eexists.
      * intros Hempty. apply (f_equal (lookup "_id")) in Hempty.
        by rewrite lookup_insert_eq in Hempty.
Qed.

(** C7: on a configured store, a well-formed id that no stored product has
    is answered 404 "Product not found", after the one query by id. *)
Theorem get_product_not_found (d : Database) (product_id oid : string) :
  ObjectId product_id = Ok oid ->
  absent (VOid oid) (collection d "product") ->
  get_product product_id (Some d) =
    (HTTPException 404 "Product not found",
     Some (log (FindOne "product" {[ "_id" := VOid oid ]}) d)).
Proof.
  intros Hid Habs. unfold get_product, find_one. rewrite Hid.
  by rewrite (find_by_id_absent _ _ Habs).
Qed.

End Store.

(** ** Validation of the request body *)

Lemma negative_not_ge0 (x : spec_float) : SFltb x zero = true -> SFleb zero x = false.
Proof.
  unfold SFltb, SFleb, zero.
  destruct x as [s|s| |s m e]; simpl; try discriminate; destruct s; simpl; congruence.
Qed.

Section Requests.
Context `{Runtime}.

(** C4: a body whose price reads as a negative number fails validation on
    the field [price]; the handler is not called and the database handle is
    returned as it was, so nothing is written. *)
Theorem create_negative_price (body : document) (db : option Database) (v : value) (x : spec_float) :
  body !! "price" = Some v ->
  float_validator v = Some x ->
  SFltb x zero = true ->
  exists fields,
    post_product body db = (RequestValidationError fields, db) /\ "price" ∈ fields.
Proof.
  intros Hbody Hv Hneg.
  assert (Hval : exists fields,
             ProductIn_validate body = Raise (ValidationError fields) /\ "price" ∈ fields).
  { unfold ProductIn_validate. rewrite Hbody. simpl. rewrite Hv. simpl. unfold ge0.
    rewrite (negative_not_ge0 _ Hneg).
    destruct (required str_validator (body !! "title")),
             (optional str_validator (body !! "description")),
             (required str_validator (body !! "category")),
             (optional str_validator (body !! "image")),
             (with_default true bool_validator (body !! "in_stock"));
      (eexists; split; [reflexivity|]); simpl;
      repeat first [by left | right]. }
  destruct Hval as (fields & Hval & Hin).
  exists fields. unfold post_product. by rewrite Hval.
Qed.

(** ** Listing by category *)

Lemma matches_category (c : string) (doc : document) :
  matches {[ "category" := VStr c ]} doc = has_category c doc.
Proof.
  rewrite matches_singleton. unfold has_category.
  destruct (bson_eqb _ _) eqn:Heq.
  - apply bson_eqb_str in Heq. symmetry. apply bool_decide_eq_true.
    destruct (doc !! "category"); simpl in Heq; congruence.
  - symmetry. apply bool_decide_eq_false. intros Hc. rewrite Hc in Heq. simpl in Heq.
    by rewrite String.eqb_refl in Heq.
Qed.

Lemma comprehension_Forall2 {A B} (f : A -> result B) (docs : list A) (bs : list B) :
  comprehension f docs = Ok bs -> Forall2 (fun d b => f d = Ok b) docs bs.
Proof.
  revert bs. induction docs as [|d docs IH]; intros bs; simpl.
  - intros [= <-]. constructor.
  - destruct (f d) as [b|e] eqn:Hd; simpl; [|discriminate].
    destruct (comprehension f docs) as [bs'|e]; simpl; [|discriminate].
    intros [= <-]. constructor; [done|]. by apply IH.
Qed.

(** The conversion keeps a stored category that is a string. *)
Lemma doc_to_product_category (doc : document) (c : string) (o : ProductOut) :
  doc !! "category" = Some (VStr c) ->
  _doc_to_product doc = Ok o ->
  category o = c.
Proof.
  intros Hc. unfold _doc_to_product. rewrite Hc.
  destruct (py_float _) as [x|e]; simpl; [|discriminate].
  unfold ProductOut_validate, ProductIn_validate. simplify_map_eq. simpl.
  repeat case_match; intros [= <-]; simplify_eq; reflexivity.
Qed.

Lemma converted_category (docs : list document) (ps : list ProductOut) (c : string) :
  Forall2 (fun doc o => _doc_to_product doc = Ok o) docs ps ->
  Forall (fun doc => doc !! "category" = Some (VStr c)) docs ->
  Forall (fun o : ProductOut => category o = c) ps.
Proof.
  induction 1 as [|doc o docs ps Ho Hps IH]; intros Hdocs; [constructor|].
  apply Forall_cons in Hdocs as [Hdoc Hdocs].
  constructor; [exact (doc_to_product_category doc c o Hdoc Ho)|by apply IH].
Qed.

(** C8, for a category that is not empty: the listing converts the stored
    products whose category is exactly [category], up to [limit] of them in
    stored order, and every product it returns has that category. *)
Theorem list_products_by_category (d : Database) (c : string) (limit : Z) :
  c <> "" ->
  list_products (Some c) limit (Some d) =
    (match comprehension _doc_to_product
             (take (Z.to_nat limit) (List.filter (has_category c) (collection d "product"))) with
     | Ok products => Return products
     | Raise e => InternalServerError e
     end,
     Some (log (Find "product" {[ "category" := VStr c ]}) d)) /\
  (forall products db',
     list_products (Some c) limit (Some d) = (Return products, db') ->
     Forall (fun o : ProductOut => category o = c) products).
Proof.
  intros Hc.
  assert (Heq : list_products (Some c) limit (Some d) =
    (match comprehension _doc_to_product
             (take (Z.to_nat limit) (List.filter (has_category c) (collection d "product"))) with
     | Ok products => Return products
     | Raise e => InternalServerError e
     end,
     Some (log (Find "product" {[ "category" := VStr c ]}) d))).
  { unfold list_products, get_documents, find.
    apply String.eqb_neq in Hc. rewrite Hc. simpl.
    rewrite (filter_ext_bool _ _ _ (matches_category c)).
    by destruct (comprehension _ _). }
  split; [exact Heq|].
  intros products db'. rewrite Heq.
  destruct (comprehension _ _) as [ps|e] eqn:Hps; [|discriminate].
  intros [= <- _]. apply comprehension_Forall2 in Hps.
  assert (Hdocs : Forall (fun doc => doc !! "category" = Some (VStr c))
            (take (Z.to_nat limit) (List.filter (has_category c) (collection d "product")))).
  { apply Forall_take, Forall_forall. intros doc Hin.
    apply list_elem_of_In, filter_In in Hin as [_ Hcat].
    by apply bool_decide_eq_true in Hcat. }
  exact (converted_category _ _ _ Hps Hdocs).
Qed.

End Requests.

(** ** Seeding *)

Section Seeding.
Context `{Runtime}.

Lemma demo_no_id : Forall (fun doc : document => doc !! "_id" = None) demo.
Proof. unfold demo. repeat constructor. Qed.

Lemma absent_snoc (oid oid' : string) (docs : list document) (doc : document) :
  absent (VOid oid) docs -> oid <> oid' ->
  absent (VOid oid) (docs ++ [<["_id" := VOid oid']> doc]).
Proof.
  intros Habs Hne doc' [Hin|Hin%list_elem_of_singleton]%elem_of_app.
  - by apply Habs.
  - subst doc'. rewrite lookup_insert_eq. congruence.
Qed.

(** The loop counts one per record, whatever it inserts. *)
Lemma seed_loop_count (docs : list document) (inserted n : Z) (d : Database) (db' : option Database) :
  seed_loop docs inserted d = (Return n, db') -> n = inserted + Z.of_nat (length docs).
Proof.
  revert inserted d. induction docs as [|doc docs IH]; intros inserted d; simpl.
  - intros [= <- _]. lia.
  - destruct (create_document "product" doc d) as [[new_id|e] d1]; [|discriminate].
    intros Hloop%IH. lia.
Qed.

(** With identifiers that are distinct and not taken, the loop stores every
    record, in order, after the documents already there. *)
Lemma seed_loop_inserts (docs : list document) (inserted : Z) (d : Database) :
  Forall (fun doc : document => doc !! "_id" = None) docs ->
  NoDup (new_oid d <$> seq (generated d) (length docs)) ->
  (forall oid, oid ∈ (new_oid d <$> seq (generated d) (length docs)) ->
     absent (VOid oid) (collection d "product")) ->
  exists d',
    seed_loop docs inserted d = (Return (inserted + Z.of_nat (length docs)), Some d') /\
    collection d' "product" =
      (collection d "product" ++ with_ids (new_oid d) docs (generated d))%list.
Proof.
  revert inserted d. induction docs as [|doc docs IH]; intros inserted d Hdocs Hnodup Hfree.
  - exists d. simpl. split; [f_equal; f_equal; lia|]. unfold with_ids. simpl.
    by rewrite app_nil_r.
  - apply Forall_cons in Hdocs as [Hdoc Hdocs].
    simpl in Hnodup, Hfree. apply NoDup_cons in Hnodup as [Hnew Hnodup].
    assert (Hfirst : absent (VOid (new_oid d (generated d))) (collection d "product"))
      by (apply Hfree; left).
    simpl. rewrite (create_document_fresh _ _ _ Hdoc Hfirst).
    set (d1 := log _ _).
    destruct (IH (inserted + 1) d1 Hdocs) as (d' & Hloop & Hcoll).
    + exact Hnodup.
    + intros oid Hin. unfold d1. rewrite collection_log, collection_store.
      apply absent_snoc; [apply Hfree; by right|].
      intros ->. by apply Hnew.
    + exists d'. split.
      * rewrite Hloop. f_equal. f_equal. lia.
      * rewrite Hcoll. unfold d1. rewrite collection_log, collection_store.
        unfold with_ids. simpl. by rewrite <- app_assoc.
Qed.

(** C5: given that the driver's next four identifiers are distinct, seeding
    an empty collection stores the four demo records in their order, each
    under its identifier, and returns 4; seeding a collection that is not
    empty returns 0 after the one count and stores nothing; and a seeding
    that returns a count returns 0 or 4. *)
Theorem seed_products_spec (d : Database) :
  NoDup (new_oid d <$> seq (generated d) 4) ->
  (collection d "product" = [] ->
   exists d',
     seed_products (Some d) = (Return 4, Some d') /\
     collection d' "product" = with_ids (new_oid d) demo (generated d) /\
     length (collection d' "product") = 4%nat) /\
  (collection d "product" <> [] ->
   seed_products (Some d) = (Return 0, Some (log (CountDocuments "product" ∅) d)) /\
   collection (log (CountDocuments "product" ∅) d) "product" = collection d "product") /\
  (forall n db', seed_products (Some d) = (Return n, db') -> n = 0 \/ n = 4).
Proof.
  intros Hnodup. repeat split.
  - intros Hempty. unfold seed_products, count_documents. rewrite Hempty. simpl.
    destruct (seed_loop_inserts demo 0 (log (CountDocuments "product" ∅) d) demo_no_id)
      as (d' & Hloop & Hcoll).
    + exact Hnodup.
    + intros oid _ doc Hin. rewrite collection_log, Hempty in Hin. inversion Hin.
    + exists d'. rewrite collection_log, Hempty in Hcoll. simpl in Hcoll.
      split; [exact Hloop|]. split; [exact Hcoll|]. by rewrite Hcoll.
  - unfold seed_products, count_documents.
    rewrite (filter_all _ _ matches_empty).
    destruct (collection d "product") as [|doc docs]; [done|]. reflexivity.
  - intros n db'. unfold seed_products.
    destruct (count_documents "product" ∅ d) as [k d1].
    destruct (k >? 0).
    + intros [= <- _]. by left.
    + intros Hloop%seed_loop_count. right. simpl in Hloop. lia.
Qed.

End Seeding.

(** ** The properties at sample inputs *)

Lemma create_then_get_sample :
  (absent (VOid (new_oid empty_shop (generated empty_shop))) (collection empty_shop "product") ->
   exists d', @create_product strict_runtime lamp (Some empty_shop) =
                (Return (new_oid empty_shop (generated empty_shop)), Some d')) /\
  (forall new_id db',
     @create_product strict_runtime lamp (Some empty_shop) = (Return new_id, db') ->
     exists db'', @get_product strict_runtime new_id db' =
                    (Return {| product := lamp; id := new_id |}, db'')).
Proof.
  apply (@create_then_get strict_runtime empty_shop lamp); vm_compute; reflexivity.
Defined.


Lemma create_negative_price_sample :
  exists fields,
    @post_product strict_runtime negative_body (Some empty_shop) =
      (RequestValidationError fields, Some empty_shop) /\ "price" ∈ fields.
Proof.
  apply (@create_negative_price strict_runtime negative_body (Some empty_shop)
           (VInt (-1)) (float_of_Z (-1))); vm_compute; reflexivity.
Defined.

Lemma seed_products_sample :
  (collection empty_shop "product" = [] ->
   exists d',
     @seed_products strict_runtime (Some empty_shop) = (Return 4, Some d') /\
     collection d' "product" = with_ids (new_oid empty_shop) demo (generated empty_shop) /\
     length (collection d' "product") = 4%nat) /\
  (collection empty_shop "product" <> [] ->
   @seed_products strict_runtime (Some empty_shop) =
     (Return 0, Some (log (CountDocuments "product" ∅) empty_shop)) /\
   collection (log (CountDocuments "product" ∅) empty_shop) "product" =
     collection empty_shop "product") /\
  (forall n db', @seed_products strict_runtime (Some empty_shop) = (Return n, db') ->
     n = 0 \/ n = 4).
Proof.
  apply (@seed_products_spec strict_runtime empty_shop).
  apply (bool_decide_unpack _). vm_compute. exact I.
Defined.

Lemma doc_to_product_defaults_sample :
  @_doc_to_product strict_runtime bare_lamp =
    Ok {| product := {| title := "Lamp"; description := None; price := S754_zero false;
                        category := "lighting"; image := None; in_stock := true |};
          id := "65f000000000000000000001" |}.
Proof.
  apply (@doc_to_product_defaults strict_runtime bare_lamp "Lamp" "lighting");
    first [reflexivity | left; reflexivity].
Defined.

Lemma get_product_not_found_sample :
  @get_product strict_runtime "65F0000000000000000000AA" (Some audio_shop) =
    (HTTPException 404 "Product not found",
     Some (log (FindOne "product" {[ "_id" := VOid "65f0000000000000000000aa" ]}) audio_shop)).
Proof.
  apply (@get_product_not_found strict_runtime audio_shop "65F0000000000000000000AA"
           "65f0000000000000000000aa").
  - vm_compute. reflexivity.
  - intros doc Hin. apply list_elem_of_singleton in Hin. subst doc.
    vm_compute. discriminate.
Defined.

Lemma list_products_by_category_sample :
  @list_products strict_runtime (Some "audio") 50 (Some audio_shop) =
    (match comprehension (@_doc_to_product strict_runtime)
             (take (Z.to_nat 50) (List.filter (has_category "audio") (collection audio_shop "product"))) with
     | Ok products => Return products
     | Raise e => InternalServerError e
     end,
     Some (log (Find "product" {[ "category" := VStr "audio" ]}) audio_shop)) /\
  (forall products db',
     @list_products strict_runtime (Some "audio") 50 (Some audio_shop) = (Return products, db') ->
     Forall (fun o : ProductOut => category o = "audio") products).
Proof.
  apply (@list_products_by_category strict_runtime audio_shop "audio" 50). discriminate.
Defined.

(** Against C8 as stated for every category: with the empty string as the
    category, the listing of a store that holds a loudspeaker returns it,
    although its stored category is "audio". *)
Lemma empty_category_lists_every_product :
  exists products db',
    @list_products strict_runtime (Some "") 50 (Some audio_shop) = (Return products, db') /\
    ~ Forall (fun o : ProductOut => category o = "") products.
Proof.
  eexists _, _. split; [vm_compute; reflexivity|].
  intros Hall. apply Forall_cons in Hall as [Hcat _]. discriminate Hcat.
Qed.

(** * Further properties of the code *)

(** ** The product input *)

(** Case analysis on the outcome of each field of [ProductIn]. *)
Ltac destruct_fields kw :=
  destruct (required str_validator (kw !! "title")),
           (optional str_validator (kw !! "description")),
           (required float_validator (kw !! "price") ≫= ge0),
           (required str_validator (kw !! "category")),
           (optional str_validator (kw !! "image")),
           (with_default true bool_validator (kw !! "in_stock")).

Section Input.
Context `{Runtime}.

Lemma dict_validate_fields (t : string) (d : option string) (x : spec_float) (c : string)
    (i : option string) (s : bool) :
  ProductIn_validate
    (dict {| title := t; description := d; price := x; category := c; image := i;
             in_stock := s |}) =
  match ge0 x with
  | Some x' => Ok {| title := t; description := d; price := x'; category := c; image := i;
                     in_stock := s |}
  | None => Raise (ValidationError ["price"])
  end.
Proof.
  unfold ProductIn_validate, dict. simplify_map_eq. simpl.
  destruct (ge0 x), d, i; reflexivity.
Qed.

(** X1: [product.dict()] validates back to the same product exactly when
    its price satisfies [price >= 0]. *)
Theorem dict_validates (p : ProductIn) :
  ProductIn_validate (dict p) = Ok p <-> SFleb zero (price p) = true.
Proof.
  destruct p as [t d x c i s]. rewrite dict_validate_fields. simpl. unfold ge0.
  destruct (SFleb zero x); split; congruence.
Qed.

Lemma validate_names (field : string) (kw : document) :
  field ∈ required_fields ->
  kw !! field = None \/ kw !! field = Some VNone ->
  exists fields, ProductIn_validate kw = Raise (ValidationError fields) /\ field ∈ fields.
Proof.
  unfold required_fields. intros Hfield Hkw. unfold ProductIn_validate.
  repeat (apply elem_of_cons in Hfield as [->|Hfield]); [| | |by apply elem_of_nil in Hfield];
    destruct Hkw as [-> | ->]; simpl;
    destruct_fields kw; try discriminate;
    (eexists; split; [reflexivity|]); simpl; repeat first [by left | right].
Qed.

(** X2: a body that leaves out [title], [price] or [category], or gives it
    as null, is refused with a validation error that names the field; the
    handler is not called and the database handle is returned as it was. *)
Theorem required_field_missing (field : string) (body : document) (db : option Database) :
  field ∈ required_fields ->
  body !! field = None \/ body !! field = Some VNone ->
  exists fields,
    post_product body db = (RequestValidationError fields, db) /\ field ∈ fields.
Proof.
  intros Hfield Hbody.
  destruct (validate_names field body Hfield Hbody) as (fields & Hval & Hin).
  exists fields. unfold post_product. by rewrite Hval.
Qed.

(** X3: a body that gives only a title, a price [>= 0] and a category is
    handled as the product with no description, no image and
    [in_stock = True]. *)
Theorem post_product_defaults (body : document) (db : option Database)
    (t c : string) (x : spec_float) :
  body !! "title" = Some (VStr t) ->
  body !! "price" = Some (VFloat x) ->
  SFleb zero x = true ->
  body !! "category" = Some (VStr c) ->
  body !! "description" = None ->
  body !! "image" = None ->
  body !! "in_stock" = None ->
  post_product body db =
    create_product {| title := t; description := None; price := x; category := c;
                      image := None; in_stock := true |} db.
Proof.
  intros Ht Hp Hx Hc Hd Hi Hs. unfold post_product, ProductIn_validate.
  rewrite Ht, Hp, Hc, Hd, Hi, Hs. simpl. unfold ge0. by rewrite Hx.
Qed.

(** X4: a price that is not a number fails [price >= 0]: the body is refused
    with a validation error naming [price], and nothing is written. *)
Theorem create_nan_price (body : document) (db : option Database) :
  body !! "price" = Some (VFloat S754_nan) ->
  exists fields,
    post_product body db = (RequestValidationError fields, db) /\ "price" ∈ fields.
Proof.
  intros Hp.
  assert (Hval : exists fields,
             ProductIn_validate body = Raise (ValidationError fields) /\ "price" ∈ fields).
  { unfold ProductIn_validate. rewrite Hp. simpl.
    destruct_fields body; try discriminate;
      (eexists; split; [reflexivity|]); simpl; repeat first [by left | right]. }
  destruct Hval as (fields & Hval & Hin).
  exists fields. unfold post_product. by rewrite Hval.
Qed.

End Input.

(** ** Stored records that are not products *)

Section Records.
Context `{Runtime}.

(** X5: a stored record whose [title] or [category] is absent or null does
    not convert: [_doc_to_product] raises. *)
Theorem doc_to_product_requires (field : string) (doc : document) :
  field ∈ ["title"; "category"] ->
  doc !! field = None \/ doc !! field = Some VNone ->
  exists e, _doc_to_product doc = Raise e.
Proof.
  intros Hfield Hdoc.
  assert (Hcases : field = "title" \/ field = "category")
    by (rewrite !elem_of_cons, elem_of_nil in Hfield; tauto).
  assert (Hfield' : field ∈ required_fields)
    by (unfold required_fields; rewrite !elem_of_cons; tauto).
  unfold _doc_to_product.
  destruct (py_float _) as [x|e]; simpl; [|by eexists].
  set (kw := <["id" := _]> _).
  assert (Hkw : kw !! field = Some VNone).
  { unfold kw. destruct Hcases as [Hf|Hf], Hdoc as [Hd|Hd]; rewrite Hf in Hd |- *;
      rewrite Hd; by simplify_map_eq. }
  destruct (validate_names field kw Hfield' (or_intror Hkw)) as (fields & Hval & _).
  unfold ProductOut_validate. rewrite Hval. by eexists.
Qed.

(** The default price is for an absent field only: a record whose price
    is present but null raises [TypeError] in [float(...)]. *)
Theorem doc_to_product_null_price (doc : document) :
  doc !! "price" = Some VNone ->
  _doc_to_product doc = Raise TypeError.
Proof. intros Hp. unfold _doc_to_product. by rewrite Hp. Qed.

(** X6: [ProductOut] inherits [price >= 0]: a stored record with a negative
    price does not convert, and the validation error names [price]. *)
Theorem doc_to_product_negative_price (doc : document) (x : spec_float) :
  doc !! "price" = Some (VFloat x) ->
  SFltb x zero = true ->
  exists fields, _doc_to_product doc = Raise (ValidationError fields) /\ "price" ∈ fields.
Proof.
  intros Hp Hneg. unfold _doc_to_product. rewrite Hp. simpl.
  set (kw := <["id" := _]> _).
  assert (Hval : exists fields,
             ProductIn_validate kw = Raise (ValidationError fields) /\ "price" ∈ fields).
  { unfold ProductIn_validate.
    assert (Hkw : kw !! "price" = Some (VFloat x)) by (unfold kw; by simplify_map_eq).
    rewrite Hkw. simpl. unfold ge0. rewrite (negative_not_ge0 _ Hneg).
    destruct_fields kw; try discriminate;
      (eexists; split; [reflexivity|]); simpl; repeat first [by left | right]. }
  destruct Hval as (fields & Hval & Hin).
  unfold ProductOut_validate. rewrite Hval.
  eexists. split; [reflexivity|]. apply elem_of_app. by left.
Qed.

Lemma doc_to_product_id (doc : document) (o : ProductOut) :
  _doc_to_product doc = Ok o -> id o = py_str (default VNone (doc !! "_id")).
Proof.
  unfold _doc_to_product.
  destruct (py_float _) as [x|e]; simpl; [|discriminate].
  unfold ProductOut_validate. simplify_map_eq. simpl.
  destruct (ProductIn_validate _) as [p|[]]; try discriminate.
  by intros [= <-].
Qed.

Lemma head_filter {A} (p : A -> bool) (l : list A) (x : A) :
  head (List.filter p l) = Some x -> x ∈ l /\ p x = true.
Proof.
  induction l as [|y l IH]; simpl; [discriminate|].
  destruct (p y) eqn:Hy; simpl.
  - intros [= ->]. split; [by left|done].
  - intros [Hin Hx]%IH. split; [by right|done].
Qed.

Lemma matches_id (oid : string) (doc : document) :
  matches {[ "_id" := VOid oid ]} doc = true <-> doc !! "_id" = Some (VOid oid).
Proof.
  rewrite matches_singleton, bson_eqb_oid. split.
  - destruct (doc !! "_id"); simpl; congruence.
  - by intros ->.
Qed.

(** The handler of [get_product] once the id has been parsed and the record
    found. *)
Lemma get_product_found (d : Database) (product_id oid : string) (doc : document) :
  ObjectId product_id = Ok oid ->
  head (List.filter (matches {[ "_id" := VOid oid ]}) (collection d "product")) = Some doc ->
  get_product product_id (Some d) =
    (match _doc_to_product doc with
     | Ok o => Return o
     | Raise e => InternalServerError e
     end,
     Some (log (FindOne "product" {[ "_id" := VOid oid ]}) d)).
Proof.
  intros Hid Hdoc. unfold get_product, find_one. rewrite Hid, Hdoc.
  apply head_filter in Hdoc as [_ Hm%matches_id].
  rewrite bool_decide_eq_false_2.
  - by destruct (_doc_to_product doc).
  - intros ->. by rewrite lookup_empty in Hm.
Qed.

(** X7: a stored record that has the requested id but does not convert is
    answered 500 with the exception of the conversion, not 404. *)
Theorem get_product_unconvertible (d : Database) (product_id oid : string)
    (doc : document) (e : exception) :
  ObjectId product_id = Ok oid ->
  head (List.filter (matches {[ "_id" := VOid oid ]}) (collection d "product")) = Some doc ->
  _doc_to_product doc = Raise e ->
  get_product product_id (Some d) =
    (InternalServerError e, Some (log (FindOne "product" {[ "_id" := VOid oid ]}) d)).
Proof.
  intros Hid Hdoc He. rewrite (get_product_found d product_id oid doc Hid Hdoc).
  by rewrite He.
Qed.

(** X8: [get_product] only reads: whatever it answers, the documents and the
    identifier counter are as before, and the journal has gained at most the
    one query by id. *)
Theorem get_product_read_only (d : Database) (product_id : string) :
  exists r d',
    get_product product_id (Some d) = (r, Some d') /\
    data d' = data d /\
    generated d' = generated d /\
    (journal d' = journal d \/
     exists oid, journal d' = FindOne "product" {[ "_id" := VOid oid ]} :: journal d).
Proof.
  unfold get_product, find_one.
  destruct (ObjectId product_id) as [oid|e].
  - destruct (head _) as [doc|]; [|by eexists _, _; repeat split; eauto].
    case_bool_decide; [by eexists _, _; repeat split; eauto|].
    destruct (_doc_to_product doc); eexists _, _; repeat split; eauto.
  - eexists _, _. repeat split; eauto.
Qed.

(** X9: a product that [get_product] returns is the conversion of a stored
    record whose [_id] is the parsed identifier, and its [id] is that
    identifier in its canonical text. *)
Theorem get_product_sound (d : Database) (product_id : string) (o : ProductOut)
    (db' : option Database) :
  get_product product_id (Some d) = (Return o, db') ->
  exists oid doc,
    ObjectId product_id = Ok oid /\
    doc ∈ collection d "product" /\
    doc !! "_id" = Some (VOid oid) /\
    _doc_to_product doc = Ok o /\
    id o = oid.
Proof.
  destruct (ObjectId product_id) as [oid|e] eqn:Hid;
    [|unfold get_product; rewrite Hid; discriminate].
  destruct (head (List.filter (matches {[ "_id" := VOid oid ]}) (collection d "product")))
    as [doc|] eqn:Hdoc;
    [|unfold get_product, find_one; rewrite Hid, Hdoc; discriminate].
  rewrite (get_product_found d product_id oid doc Hid Hdoc).
  destruct (_doc_to_product doc) as [o'|e] eqn:Ho; [|discriminate].
  intros [= -> _]. apply head_filter in Hdoc as [Hin Hm%matches_id].
  exists oid, doc. repeat split; try done.
  rewrite (doc_to_product_id doc o Ho), Hm. reflexivity.
Qed.

End Records.

(** ** Identifiers in requests *)

Lemma hex_lower (c : ascii) : is_hex c = true -> is_lower_hex (lower c) = true.
Proof.
  destruct c as [[] [] [] [] [] [] [] []]; vm_compute; congruence.
Qed.

Lemma string_map_length (f : ascii -> ascii) (s : string) :
  String.length (string_map f s) = String.length s.
Proof. induction s as [|c s IH]; simpl; congruence. Qed.

Lemma lower_wf (s : string) :
  String.length s = 24%nat -> string_forallb is_hex s = true ->
  wf_oid (string_map lower s) = true.
Proof.
  intros Hlen Hall. unfold wf_oid. rewrite string_map_length, Hlen. simpl.
  clear Hlen. induction s as [|c s IH]; simpl in *; [done|].
  apply andb_prop in Hall as [Hc Hs]. by rewrite (hex_lower c Hc), (IH Hs).
Qed.

(** A character that is neither a hexadecimal digit nor a blank is refused
    wherever it stands. *)
Lemma fromhex_refuses (s : string) (top : option ascii) (c : ascii) :
  In c (list_ascii_of_string s) -> is_hex c = false -> is_space c = false ->
  fromhex_from top s = None.
Proof.
  intros Hin Hhex Hspace. revert top.
  induction s as [|c' s IH]; intros top; simpl in Hin; [done|].
  destruct Hin as [->|Hin].
  - destruct top; simpl; by rewrite ?Hspace, Hhex.
  - destruct top as [t|]; simpl.
    + destruct (is_hex c'); [|done]. by rewrite (IH Hin None).
    + destruct (is_space c'); [by apply IH|].
      destruct (is_hex c'); [by apply IH|done].
Qed.

Section Identifiers.
Context `{Runtime}.

(** X10: for an id of 24 hexadecimal digits the case of the digits does not
    matter: the request is answered as the request by the same digits in
    lower case. *)
Theorem get_product_case_insensitive (db : option Database) (product_id : string) :
  String.length product_id = 24%nat ->
  string_forallb is_hex product_id = true ->
  get_product product_id db = get_product (string_map lower product_id) db.
Proof.
  intros Hlen Hhex. unfold get_product.
  by rewrite (ObjectId_digits _ Hlen Hhex), (ObjectId_of_str _ (lower_wf _ Hlen Hhex)).
Qed.

(** X11: on a configured store, [get_product] answers 400 "Invalid product
    id" exactly when [ObjectId] refuses the id.  It refuses every id that is
    not 24 characters long and every id that holds a character that is
    neither a hexadecimal digit nor a blank; it accepts every id of 24
    hexadecimal digits. *)
Theorem get_product_400_iff (d : Database) (product_id : string) :
  ((get_product product_id (Some d)).1 = HTTPException 400 "Invalid product id" <->
   ObjectId product_id = Raise InvalidId) /\
  (String.length product_id <> 24%nat -> ObjectId product_id = Raise InvalidId) /\
  (forall c, In c (list_ascii_of_string product_id) ->
     is_hex c = false -> is_space c = false ->
     ObjectId product_id = Raise InvalidId) /\
  (String.length product_id = 24%nat -> string_forallb is_hex product_id = true ->
   ObjectId product_id = Ok (string_map lower product_id)).
Proof.
  split; [|split; [|split]].
  - unfold get_product, find_one.
    destruct (ObjectId product_id) as [oid|e] eqn:Hid.
    + split; [|discriminate].
      destruct (head _) as [doc|]; [|discriminate].
      case_bool_decide; [discriminate|].
      destruct (_doc_to_product doc); discriminate.
    + split; [|done]. intros _. revert Hid. unfold ObjectId.
      destruct (_ =? _)%nat; [|congruence].
      destruct (fromhex product_id); congruence.
  - intros Hlen%Nat.eqb_neq. unfold ObjectId. by rewrite Hlen.
  - intros c Hin Hhex Hspace. unfold ObjectId, fromhex.
    rewrite (fromhex_refuses _ None c Hin Hhex Hspace).
    by destruct (_ =? _)%nat.
  - apply ObjectId_digits.
Qed.

End Identifiers.

(** ** The listing *)

Lemma comprehension_raise {A B} (f : A -> result B) (docs : list A) (x : A) (e : exception) :
  x ∈ docs -> f x = Raise e -> exists e', comprehension f docs = Raise e'.
Proof.
  intros Hin Hx. induction docs as [|d docs IH]; [by apply elem_of_nil in Hin|].
  simpl. apply elem_of_cons in Hin as [<-|Hin].
  - rewrite Hx. by eexists.
  - destruct (f d); simpl; [|by eexists].
    destruct (IH Hin) as [e' ->]. by eexists.
Qed.

Section Catalogue.
Context `{Runtime}.

Lemma list_products_unfold (category : option string) (limit : Z) (d : Database) :
  list_products category limit (Some d) =
    (match comprehension _doc_to_product
             (get_documents "product" (category_filter category) limit d).1 with
     | Ok products => Return products
     | Raise e => InternalServerError e
     end,
     Some (get_documents "product" (category_filter category) limit d).2).
Proof.
  unfold list_products, category_filter, get_documents, find. simpl.
  by destruct (comprehension _ _).
Qed.

(** X12: the listing is all or nothing.  When it returns products, they are
    the conversions of the documents the gateway returned, one for one and
    in order; when one of those documents does not convert, the whole
    request is answered 500. *)
Theorem list_products_pointwise (category : option string) (limit : Z) (d : Database) :
  (forall products db',
     list_products category limit (Some d) = (Return products, db') ->
     Forall2 (fun doc o => _doc_to_product doc = Ok o)
       (get_documents "product" (category_filter category) limit d).1 products) /\
  (forall doc e,
     doc ∈ (get_documents "product" (category_filter category) limit d).1 ->
     _doc_to_product doc = Raise e ->
     exists e',
       list_products category limit (Some d) =
         (InternalServerError e',
          Some (get_documents "product" (category_filter category) limit d).2)).
Proof.
  rewrite list_products_unfold. split.
  - intros products db'.
    destruct (comprehension _ _) as [ps|e] eqn:Hps; [|discriminate].
    intros [= <- _]. by apply comprehension_Forall2.
  - intros doc e Hin He.
    destruct (comprehension_raise _ _ doc e Hin He) as [e' ->]. by eexists.
Qed.

End Catalogue.

(** ** The diagnostic report *)

(** X13: whatever the handle, the report gives for [database_url] and
    [database_name] only whether the environment variable is set to a text
    that is not empty, never the name of the database; [connection_status]
    tells whether there is a handle; and the only call made on a handle is
    the listing of its collections. *)
Theorem test_database_environment (env : environ) (db : option Database) :
  exists r,
    test_database env db = (Return r, log ListCollectionNames <$> db) /\
    backend r = "✅ Running" /\
    database_url r = Some (if is_set (DATABASE_URL env) then "✅ Set" else "❌ Not Set") /\
    database_name r = Some (if is_set (DATABASE_NAME env) then "✅ Set" else "❌ Not Set") /\
    connection_status r = match db with Some _ => "Connected" | None => "Not Connected" end.
Proof.
  unfold test_database. destruct db as [d|]; simpl.
  - destruct (collection_names d); eexists; repeat split.
  - eexists. repeat split.
Qed.

(** ** Creating, seeding and reading back *)

Section Composition.
Context `{Runtime}.

Lemma seed_on_empty (d : Database) :
  NoDup (new_oid d <$> seq (generated d) 4) ->
  collection d "product" = [] ->
  exists d',
    seed_products (Some d) = (Return 4, Some d') /\
    collection d' "product" = with_ids (new_oid d) demo (generated d).
Proof.
  intros Hnodup Hempty. unfold seed_products, count_documents. rewrite Hempty. simpl.
  destruct (seed_loop_inserts demo 0 (log (CountDocuments "product" ∅) d) demo_no_id)
    as (d' & Hloop & Hcoll).
  - exact Hnodup.
  - intros oid _ doc Hin. rewrite collection_log, Hempty in Hin. by apply elem_of_nil in Hin.
  - exists d'. rewrite collection_log, Hempty in Hcoll. by split.
Qed.

Lemma seed_on_stocked (d : Database) :
  collection d "product" <> [] ->
  seed_products (Some d) = (Return 0, Some (log (CountDocuments "product" ∅) d)).
Proof.
  intros Hstocked. unfold seed_products, count_documents.
  rewrite (filter_all _ _ matches_empty).
  by destruct (collection d "product").
Qed.

(** X14: seeding is idempotent.  After a seeding of an empty collection has
    stored its four records, a second seeding returns 0 and leaves those
    four records as the collection. *)
Theorem seed_twice (d : Database) :
  NoDup (new_oid d <$> seq (generated d) 4) ->
  collection d "product" = [] ->
  exists d1 d2,
    seed_products (Some d) = (Return 4, Some d1) /\
    seed_products (Some d1) = (Return 0, Some d2) /\
    collection d2 "product" = collection d1 "product" /\
    length (collection d2 "product") = 4%nat.
Proof.
  intros Hnodup Hempty.
  destruct (seed_on_empty d Hnodup Hempty) as (d1 & Hseed & Hcoll).
  exists d1, (log (CountDocuments "product" ∅) d1).
  split; [exact Hseed|]. rewrite collection_log. split; [|split; [done|by rewrite Hcoll]].
  apply seed_on_stocked. by rewrite Hcoll.
Qed.

Lemma demo_dicts : demo = dict <$> demo_inputs.
Proof. reflexivity. Qed.

Lemma demo_prices : Forall (fun p => SFleb zero (price p) = true) demo_inputs.
Proof. unfold demo_inputs. repeat constructor. Qed.

(** The stored forms of products with prices [>= 0] convert back, each with
    its identifier. *)
Lemma comprehension_stored (gen : nat -> string) (ps : list ProductIn) (first : nat) :
  Forall (fun p => SFleb zero (price p) = true) ps ->
  comprehension _doc_to_product (with_ids gen (dict <$> ps) first) = Ok (outputs gen ps first).
Proof.
  unfold with_ids, outputs. rewrite length_fmap. revert first.
  induction ps as [|p ps IH]; intros first Hps; [done|].
  apply Forall_cons in Hps as [Hp Hps].
  change (comprehension _doc_to_product
            (zip_with (fun doc n => <["_id" := VOid (gen n)]> doc)
               (dict <$> p :: ps) (seq first (length (p :: ps)))))
    with (_doc_to_product (<["_id" := VOid (gen first)]> (dict p)) ≫= fun b =>
          comprehension _doc_to_product
            (zip_with (fun doc n => <["_id" := VOid (gen n)]> doc)
               (dict <$> ps) (seq (S first) (length ps))) ≫= fun bs => Ok (b :: bs)).
  by rewrite (doc_to_product_stored p (gen first) Hp), (IH (S first) Hps).
Qed.

(** X15: after a seeding of an empty collection, a listing without category
    and with a limit of four or more returns the four demo products, in
    their order, each under the identifier generated for it. *)
Theorem seed_then_list (d : Database) (limit : Z) :
  NoDup (new_oid d <$> seq (generated d) 4) ->
  collection d "product" = [] ->
  4 <= limit ->
  exists d1 d2,
    seed_products (Some d) = (Return 4, Some d1) /\
    list_products None limit (Some d1) =
      (Return (outputs (new_oid d) demo_inputs (generated d)), Some d2).
Proof.
  intros Hnodup Hempty Hlimit.
  destruct (seed_on_empty d Hnodup Hempty) as (d1 & Hseed & Hcoll).
  exists d1, (log (Find "product" ∅) d1). split; [exact Hseed|].
  unfold list_products, get_documents, find.
  rewrite (filter_all _ _ matches_empty), Hcoll, demo_dicts.
  rewrite take_ge.
  - by rewrite (comprehension_stored _ _ _ demo_prices).
  - unfold with_ids. rewrite length_zip_with, length_seq. simpl. lia.
Qed.

(** X16: a later creation does not disturb an earlier product.  After two
    creations under distinct fresh identifiers, the first id still gets the
    first product. *)
Theorem create_twice_get_first (d : Database) (p q : ProductIn) :
  SFleb zero (price p) = true ->
  wf_oid (new_oid d (generated d)) = true ->
  absent (VOid (new_oid d (generated d))) (collection d "product") ->
  absent (VOid (new_oid d (S (generated d)))) (collection d "product") ->
  new_oid d (generated d) <> new_oid d (S (generated d)) ->
  exists d1 d2 d3,
    create_product p (Some d) = (Return (new_oid d (generated d)), Some d1) /\
    create_product q (Some d1) = (Return (new_oid d (S (generated d))), Some d2) /\
    get_product (new_oid d (generated d)) (Some d2) =
      (Return {| product := p; id := new_oid d (generated d) |}, Some d3).
Proof.
  intros Hprice Hwf Hfirst Hsecond Hne.
  set (id1 := new_oid d (generated d)) in *.
  set (id2 := new_oid d (S (generated d))) in *.
  set (doc1 := <["_id" := VOid id1]> (dict p)).
  set (d1 := log (InsertOne "product" (dict p))
               (store "product" (collection d "product" ++ [doc1]) (S (generated d)) d)).
  assert (Hcreate1 : create_product p (Some d) = (Return id1, Some d1)).
  { unfold create_product. by rewrite (create_document_fresh _ _ _ (dict_no_id p) Hfirst). }
  assert (Hcoll1 : collection d1 "product" = (collection d "product" ++ [doc1])%list)
    by (unfold d1; by rewrite collection_log, collection_store).
  assert (Hfree : absent (VOid (new_oid d1 (generated d1))) (collection d1 "product")).
  { rewrite Hcoll1. apply absent_snoc; [exact Hsecond|]. change (id2 <> id1). congruence. }
  set (doc2 := <["_id" := VOid id2]> (dict q)).
  set (d2 := log (InsertOne "product" (dict q))
               (store "product" (collection d1 "product" ++ [doc2]) (S (generated d1)) d1)).
  assert (Hcreate2 : create_product q (Some d1) = (Return id2, Some d2)).
  { unfold create_product. by rewrite (create_document_fresh _ _ _ (dict_no_id q) Hfree). }
  exists d1, d2, (log (FindOne "product" {[ "_id" := VOid id1 ]}) d2).
  split; [exact Hcreate1|]. split; [exact Hcreate2|].
  rewrite (get_product_found d2 id1 id1 doc1 (ObjectId_of_str id1 Hwf)).
  - unfold doc1. by rewrite (doc_to_product_stored p id1 Hprice).
  - unfold d2. rewrite collection_log, collection_store, Hcoll1, !filter_app_bool.
    rewrite (find_by_id_absent _ _ Hfirst). simpl.
    assert (Hm : matches {[ "_id" := VOid id1 ]} doc1 = true)
      by (apply matches_id; unfold doc1; by rewrite lookup_insert_eq).
    by rewrite Hm.
Qed.

End Composition.

(** ** The further properties at sample inputs *)

Lemma required_field_missing_sample :
  exists fields,
    @post_product strict_runtime untitled_body (Some empty_shop) =
      (RequestValidationError fields, Some empty_shop) /\ "title" ∈ fields.
Proof.
  apply (@required_field_missing strict_runtime "title" untitled_body (Some empty_shop)).
  - by left.
  - left. reflexivity.
Defined.

Lemma post_product_defaults_sample :
  @post_product strict_runtime lamp_body (Some empty_shop) =
    @create_product strict_runtime
      {| title := "Lamp"; description := None; price := float_of_Z 129;
         category := "lighting"; image := None; in_stock := true |} (Some empty_shop).
Proof.
  apply (@post_product_defaults strict_runtime lamp_body (Some empty_shop)
           "Lamp" "lighting" (float_of_Z 129)); reflexivity.
Defined.

Lemma create_nan_price_sample :
  exists fields,
    @post_product strict_runtime nan_body (Some empty_shop) =
      (RequestValidationError fields, Some empty_shop) /\ "price" ∈ fields.
Proof.
  apply (@create_nan_price strict_runtime nan_body (Some empty_shop)). reflexivity.
Defined.

Lemma doc_to_product_requires_sample :
  exists e, @_doc_to_product strict_runtime untitled_doc = Raise e.
Proof.
  apply (@doc_to_product_requires strict_runtime "title" untitled_doc).
  - by left.
  - left. reflexivity.
Defined.

Lemma doc_to_product_null_price_sample :
  @_doc_to_product strict_runtime unpriced_doc = Raise TypeError.
Proof.
  apply (@doc_to_product_null_price strict_runtime unpriced_doc). reflexivity.
Defined.

Lemma doc_to_product_negative_price_sample :
  exists fields,
    @_doc_to_product strict_runtime refund_doc = Raise (ValidationError fields) /\
    "price" ∈ fields.
Proof.
  apply (@doc_to_product_negative_price strict_runtime refund_doc (float_of_Z (-5)));
    reflexivity.
Defined.

Lemma get_product_unconvertible_sample :
  @get_product strict_runtime "65f000000000000000000002" (Some broken_shop) =
    (InternalServerError TypeError,
     Some (log (FindOne "product" {[ "_id" := VOid "65f000000000000000000002" ]}) broken_shop)).
Proof.
  apply (@get_product_unconvertible strict_runtime broken_shop "65f000000000000000000002"
           "65f000000000000000000002" unpriced_doc TypeError);
    vm_compute; reflexivity.
Defined.

Lemma get_product_sound_sample :
  exists oid doc,
    ObjectId "65F000000000000000000000" = Ok oid /\
    doc ∈ collection audio_shop "product" /\
    doc !! "_id" = Some (VOid oid) /\
    @_doc_to_product strict_runtime doc = Ok speaker_out /\
    id speaker_out = oid.
Proof.
  apply (@get_product_sound strict_runtime audio_shop "65F000000000000000000000" speaker_out
           (Some (log (FindOne "product" {[ "_id" := VOid "65f000000000000000000000" ]})
                    audio_shop))).
  vm_compute. reflexivity.
Defined.

Lemma get_product_case_insensitive_sample :
  @get_product strict_runtime "65F000000000000000000000" (Some audio_shop) =
  @get_product strict_runtime (string_map lower "65F000000000000000000000") (Some audio_shop).
Proof.
  apply (@get_product_case_insensitive strict_runtime (Some audio_shop)
           "65F000000000000000000000"); reflexivity.
Defined.

Lemma seed_twice_sample :
  exists d1 d2,
    @seed_products strict_runtime (Some empty_shop) = (Return 4, Some d1) /\
    @seed_products strict_runtime (Some d1) = (Return 0, Some d2) /\
    collection d2 "product" = collection d1 "product" /\
    length (collection d2 "product") = 4%nat.
Proof.
  apply (@seed_twice strict_runtime empty_shop).
  - apply (bool_decide_unpack _). vm_compute. exact I.
  - reflexivity.
Defined.

Lemma seed_then_list_sample :
  exists d1 d2,
    @seed_products strict_runtime (Some empty_shop) = (Return 4, Some d1) /\
    @list_products strict_runtime None 50 (Some d1) =
      (Return (outputs sample_oid demo_inputs 0), Some d2).
Proof.
  apply (@seed_then_list strict_runtime empty_shop 50).
  - apply (bool_decide_unpack _). vm_compute. exact I.
  - reflexivity.
  - lia.
Defined.

Lemma create_twice_get_first_sample :
  exists d1 d2 d3,
    @create_product strict_runtime lamp (Some empty_shop) =
      (Return "65f000000000000000000000", Some d1) /\
    @create_product strict_runtime mat (Some d1) =
      (Return "65f000000000000000000001", Some d2) /\
    @get_product strict_runtime "65f000000000000000000000" (Some d2) =
      (Return {| product := lamp; id := "65f000000000000000000000" |}, Some d3).
Proof.
  apply (@create_twice_get_first strict_runtime empty_shop lamp mat).
  - vm_compute. reflexivity.
  - vm_compute. reflexivity.
  - intros doc Hin. by apply elem_of_nil in Hin.
  - intros doc Hin. by apply elem_of_nil in Hin.
  - discriminate.
Defined.

(** ** Identifiers with blanks, and texts outside ASCII *)

(** The two bytes of U+00E9 and the three of U+2705. *)
Lemma utf8_sample : utf8 [233%N; 9989%N] = "é✅".
Proof. reflexivity. Qed.

(** An id of 22 digits and two blanks is read as eleven bytes: it is looked
    up, and not found. *)
Lemma get_product_blank_padded :
  @get_product strict_runtime "65f0000000000000000000  " (Some empty_shop) =
    (HTTPException 404 "Product not found",
     Some (log (FindOne "product" {[ "_id" := VOid "65f0000000000000000000" ]}) empty_shop)).
Proof. vm_compute. reflexivity. Qed.

(** A blank inside a byte, and a digit left over, are refused. *)
Lemma ObjectId_split_byte :
  ObjectId "6 5f000000000000000000000" = Raise InvalidId /\
  ObjectId "65f00000000000000000000 " = Raise InvalidId.
Proof. split; reflexivity. Qed.

(** Of the sixty characters of the failing listing, fifty are reported:
    a hundred bytes. *)
Lemma test_database_failing_listing :
  exists r,
    test_database no_environ (Some failing_shop) =
      (Return r, Some (log ListCollectionNames failing_shop)) /\
    database r = "⚠️  Connected but Error: " ++ utf8 (replicate 50 233%N) /\
    String.length (utf8 (replicate 50 233%N)) = 100%nat.
Proof. eexists. repeat split. Qed.
